(** * Crumble Bakery implementation documentation

    A shallow embedding of [.dev-team/implementations/project.py]: the
    class [CrumbleBakeryImplementation], its four accessor methods and the
    driver [main], followed by the properties of the specification.

    Python objects live in a heap of attribute dictionaries; methods and the
    driver run in a state-and-exception monad over the interpreter state
    (arguments, environment, standard input, what standard output has
    taken, the heap).  Texts are strings of bytes, non-ASCII characters in
    UTF-8.  Dicts keep insertion order.

    The driver is given at two levels.  [main] is the level of text: its
    stream takes every [str] as it is, and the properties of the layout of
    the output are stated there.  [main_on] sends the same prints to a
    stream with an encoding, a buffer and a device, where a write can raise
    and the exit status of the script is decided; [main_on_utf_8] shows
    that the two agree on a UTF-8 stream. *)

From Stdlib Require Import List String Ascii ZArith Bool Arith Lia.
From Stdlib Require Import DecimalString.
Import ListNotations.
Open Scope string_scope.

Set Warnings "-register-all".

(** ** Text helpers *)

(** The one-character string ["\n"]. *)
Definition nl : string := String (ascii_of_nat 10) EmptyString.

Definition squote : ascii := ascii_of_nat 39.
Definition dquote : ascii := ascii_of_nat 34.
Definition backslash : ascii := ascii_of_nat 92.

(** Python's [needle in hay] on [str]. *)
Fixpoint contains (needle hay : string) : bool :=
  prefix needle hay ||
  match hay with
  | EmptyString => false
  | String _ rest => contains needle rest
  end.

(** Python's [sep.join(parts)]. *)
Fixpoint join (sep : string) (parts : list string) : string :=
  match parts with
  | [] => EmptyString
  | [p] => p
  | p :: rest => p ++ sep ++ join sep rest
  end.

(** The text that follows the first [n] characters. *)
Fixpoint skip (n : nat) (s : string) : string :=
  match n, s with
  | O, _ => s
  | S _, EmptyString => EmptyString
  | S n', String _ rest => skip n' rest
  end.

(** The lines of a text: pieces between line feeds, a final line feed opening
    no further line (as [str.splitlines] does for ["\n"]). *)
Fixpoint lines_from (cur : string) (s : string) : list string :=
  match s with
  | EmptyString =>
      match cur with EmptyString => [] | _ => [cur] end
  | String c rest =>
      if Ascii.eqb c (ascii_of_nat 10)
      then cur :: lines_from EmptyString rest
      else lines_from (cur ++ String c EmptyString) rest
  end.

Definition lines (s : string) : list string := lines_from EmptyString s.

(** ** Python values *)

Inductive value : Type :=
| VStr (s : string)
| VBool (b : bool)
| VInt (z : Z)
| VList (l : list value)
| VDict (d : list (string * value)).

(** A [dict] with [str] keys, in insertion order. *)
Definition dict : Type := list (string * value).

Definition keys (d : dict) : list string := map fst d.
Definition values (d : dict) : list value := map snd d.
Definition items (d : dict) : list (string * value) := d.
Definition len (d : dict) : nat := List.length d.

(** [d.get(k)] *)
Fixpoint getitem (d : dict) (k : string) : option value :=
  match d with
  | [] => None
  | (k', v) :: rest => if String.eqb k' k then Some v else getitem rest k
  end.

(** [d[k] = v]: an existing key keeps its position, a new one goes last. *)
Fixpoint setitem (d : dict) (k : string) (v : value) : dict :=
  match d with
  | [] => [(k, v)]
  | (k', v') :: rest =>
      if String.eqb k' k then (k', v) :: rest else (k', v') :: setitem rest k v
  end.

(** A dict display [{k1: v1, ..., kn: vn}]: the entries are stored left to
    right. *)
Definition dict_display (entries : list (string * value)) : dict :=
  fold_left (fun d kv => setitem d (fst kv) (snd kv)) entries [].

(** *** [repr] and [str] *)

Definition hex_digit (n : nat) : ascii :=
  if Nat.ltb n 10 then ascii_of_nat (48 + n) else ascii_of_nat (87 + n).

Definition hex2 (n : nat) : string :=
  String (hex_digit (n / 16)) (String (hex_digit (n mod 16)) EmptyString).

(** One character of [repr] of a [str] quoted with [q].  Characters above
    127 are the bytes of printable non-ASCII text, which [repr] keeps. *)
Definition repr_char (q c : ascii) : string :=
  let n := nat_of_ascii c in
  if Ascii.eqb c q || Ascii.eqb c backslash then String backslash (String c EmptyString)
  else if Nat.eqb n 9 then String backslash "t"
  else if Nat.eqb n 10 then String backslash "n"
  else if Nat.eqb n 13 then String backslash "r"
  else if Nat.ltb n 32 || Nat.eqb n 127 then String backslash "x" ++ hex2 n
  else String c EmptyString.

Fixpoint repr_chars (q : ascii) (s : string) : string :=
  match s with
  | EmptyString => EmptyString
  | String c rest => repr_char q c ++ repr_chars q rest
  end.

(** [repr] of a [str]: single quotes, unless the text has a single quote and
    no double quote. *)
Definition repr_str (s : string) : string :=
  let q :=
    if contains (String squote EmptyString) s
       && negb (contains (String dquote EmptyString) s)
    then dquote else squote in
  String q EmptyString ++ repr_chars q s ++ String q EmptyString.

Definition repr_int (z : Z) : string := NilZero.string_of_int (Z.to_int z).

Fixpoint repr (v : value) : string :=
  match v with
  | VStr s => repr_str s
  | VBool b => if b then "True" else "False"
  | VInt z => repr_int z
  | VList l =>
      "[" ++ join ", " ((fix go (l : list value) : list string :=
                           match l with
                           | [] => []
                           | x :: rest => repr x :: go rest
                           end) l) ++ "]"
  | VDict d =>
      "{" ++ join ", " ((fix go (d : list (string * value)) : list string :=
                           match d with
                           | [] => []
                           | (k, x) :: rest =>
                               (repr_str k ++ ": " ++ repr x) :: go rest
                           end) d) ++ "}"
  end.

(** [str(v)], which is also what a replacement field [{v}] of an f-string
    inserts: a [str] as it is, anything else by [repr]. *)
Definition str (v : value) : string :=
  match v with
  | VStr s => s
  | _ => repr v
  end.

(** ** Interpreter state and the monad of effects *)

(** An object is its attribute dictionary; a reference is an index of the
    heap. *)
Definition obj : Type := dict.
Definition ref : Type := nat.

Record State : Type := mkState {
  argv : list string;
  environ : list (string * string);
  stdin : string;
  stdout : string;
  heap : list obj
}.

Inductive exn : Type :=
| AttributeError (name : string)
| InvalidReference (r : ref)
| UnicodeEncodeError (text : string)
| OSError.

Inductive result (A : Type) : Type :=
| Ok (a : A)
| Raise (e : exn).
Arguments Ok {A} a.
Arguments Raise {A} e.

Definition M (A : Type) : Type := State -> result A * State.

Definition ret {A} (a : A) : M A := fun st => (Ok a, st).

Definition bind {A B} (m : M A) (f : A -> M B) : M B :=
  fun st =>
    match m st with
    | (Ok a, st') => f a st'
    | (Raise e, st') => (Raise e, st')
    end.

Notation "x <- c1 ;; c2" := (bind c1 (fun x => c2))
  (at level 61, c1 at next level, right associativity).
Notation "c1 ;; c2" := (bind c1 (fun _ => c2))
  (at level 61, right associativity).

(** [for x in xs: body(x)] *)
Fixpoint for_each {A} (xs : list A) (body : A -> M unit) : M unit :=
  match xs with
  | [] => ret tt
  | x :: rest => body x ;; for_each rest body
  end.

Definition set_stdout (st : State) (out : string) : State :=
  mkState (argv st) (environ st) (stdin st) out (heap st).

Definition set_heap (st : State) (h : list obj) : State :=
  mkState (argv st) (environ st) (stdin st) (stdout st) h.

(** [sys.stdout.write(s)] at the level of text: the stream takes every
    [str], as a standard output in UTF-8 does (see [write_on] for a stream
    with an encoding, and [main_on_utf_8] for the link). *)
Definition write (s : string) : M unit :=
  fun st => (Ok tt, set_stdout st (stdout st ++ s)).

(** [print(s)]: the text, then the line end. *)
Definition print (s : string) : M unit :=
  write s ;; write nl.

Fixpoint update_nth {A} (n : nat) (x : A) (l : list A) : list A :=
  match n, l with
  | _, [] => []
  | O, _ :: rest => x :: rest
  | S n', y :: rest => y :: update_nth n' x rest
  end.

(** Allocation of an object with no attributes yet. *)
Definition new_object : M ref :=
  fun st => (Ok (List.length (heap st)), set_heap st (heap st ++ [[]])%list).

(** [o.name] *)
Definition getattr (o : ref) (name : string) : M value :=
  fun st =>
    match nth_error (heap st) o with
    | None => (Raise (InvalidReference o), st)
    | Some attrs =>
        match getitem attrs name with
        | Some v => (Ok v, st)
        | None => (Raise (AttributeError name), st)
        end
    end.

(** [o.name = v] *)
Definition setattr (o : ref) (name : string) (v : value) : M unit :=
  fun st =>
    match nth_error (heap st) o with
    | None => (Raise (InvalidReference o), st)
    | Some attrs =>
        (Ok tt, set_heap st (update_nth o (setitem attrs name v) (heap st)))
    end.

(** ** The class [CrumbleBakeryImplementation] *)

Definition __init__ (self : ref) : M unit :=
  setattr self "project_name" (VStr "Crumble Bakery") ;;
  setattr self "file_count" (VInt 2) ;;
  setattr self "max_lines_per_file" (VInt 100) ;;
  setattr self "tech_stack" (VList [VStr "HTML5"; VStr "CSS3"]).

Definition get_architecture_compliance (self : ref) : M dict :=
  ret (dict_display
    [ ("file_count", VStr "✓ Exactly 2 files (index.html, style.css)");
      ("line_limits", VStr "✓ Both files under 100 lines");
      ("no_javascript", VStr "✓ Pure HTML/CSS implementation");
      ("no_external_libs", VStr "✓ No Bootstrap, Tailwind, or external fonts");
      ("semantic_html", VStr "✓ Proper semantic tags used");
      ("mobile_first", VStr "✓ Mobile-first responsive design");
      ("form_submission", VStr "✓ Pure HTML form with POST method") ]).

Definition get_technical_features (self : ref) : M dict :=
  ret (dict_display
    [ ("responsive_design", VDict (dict_display
         [ ("approach", VStr "Mobile-first with single @media breakpoint at 480px");
           ("layout", VStr "Flexbox for vertical/horizontal centering") ]));
      ("color_scheme", VDict (dict_display
         [ ("background", VStr "#faf8f5 (warm cream)");
           ("primary_text", VStr "#333333 (dark gray)");
           ("accent", VStr "#8b4513 (saddle brown)") ]));
      ("typography", VDict (dict_display
         [ ("font_stack", VStr "system-ui, -apple-system, sans-serif");
           ("no_external_fonts", VBool true) ]));
      ("form_handling", VDict (dict_display
         [ ("method", VStr "POST");
           ("validation", VStr "HTML5 required attribute");
           ("accessibility", VStr "ARIA labels for screen readers") ])) ]).

Definition get_error_handling (self : ref) : M dict :=
  ret (dict_display
    [ ("css_fallbacks", VStr "System font stack ensures text renders");
      ("form_validation", VStr "HTML5 required attribute prevents empty submissions");
      ("accessibility", VStr "ARIA labels and semantic HTML for screen readers");
      ("graceful_degradation", VStr "Works without CSS (semantic HTML structure)") ]).

Definition get_deployment_notes (self : ref) : M dict :=
  ret (dict_display
    [ ("hosting", VStr "Can be hosted on any static web server");
      ("dependencies", VStr "None - completely self-contained");
      ("browser_support", VStr "All modern browsers (IE11+)");
      ("performance", VStr "Minimal HTTP requests, no external resources");
      ("seo_ready", VStr "Semantic HTML with proper meta tags") ]).

(** The call [CrumbleBakeryImplementation()]: a fresh object, initialised. *)
Definition CrumbleBakeryImplementation : M ref :=
  self <- new_object ;;
  __init__ self ;;
  ret self.

(** ** The driver *)

(** The statements of [main] after [bakery] is bound. *)
Definition main_body (bakery : ref) : M unit :=
  project_name <- getattr bakery "project_name" ;;
  print ("=== " ++ str project_name ++ " Implementation Documentation ===") ;;
  print (nl ++ "1. Architecture Compliance:") ;;
  compliance <- get_architecture_compliance bakery ;;
  for_each (items compliance) (fun '(requirement, status) =>
    print ("   " ++ str status)) ;;
  print (nl ++ "2. Technical Features:") ;;
  features <- get_technical_features bakery ;;
  for_each (items features) (fun '(category, details) =>
    print ("   " ++ category ++ ": " ++ str details)) ;;
  print (nl ++ "3. Error Handling:") ;;
  error_handling <- get_error_handling bakery ;;
  for_each (items error_handling) (fun '(aspect, approach) =>
    print ("   " ++ aspect ++ ": " ++ str approach)) ;;
  print (nl ++ "4. Deployment Notes:") ;;
  deployment <- get_deployment_notes bakery ;;
  for_each (items deployment) (fun '(aspect, note) =>
    print ("   " ++ aspect ++ ": " ++ str note)).

Definition main : M unit :=
  bakery <- CrumbleBakeryImplementation ;;
  main_body bakery.

(** ** Notions used to state the properties *)

(** The state of a process that has written nothing and allocated nothing. *)
Definition initial_state (args : list string) (env : list (string * string))
    (input : string) : State :=
  mkState args env input EmptyString [].

(** The text a computation adds to standard output when run from [st]. *)
Definition written_by {A} (m : M A) (st : State) : string :=
  skip (String.length (stdout st)) (stdout (snd (m st))).

(** [m] returns [a], writes [text] and changes nothing else, from every
    state. *)
Definition emits {A} (m : M A) (a : A) (text : string) : Prop :=
  forall st, m st = (Ok a, set_stdout st (stdout st ++ text)).

(** Lines joined back into a text, each closed by a line feed. *)
Fixpoint unlines (ls : list string) : string :=
  match ls with
  | [] => EmptyString
  | l :: rest => l ++ nl ++ unlines rest
  end.

(** The attributes of an instance once [__init__] has run. *)
Definition instance_attrs : obj :=
  [ ("project_name", VStr "Crumble Bakery");
    ("file_count", VInt 2);
    ("max_lines_per_file", VInt 100);
    ("tech_stack", VList [VStr "HTML5"; VStr "CSS3"]) ].

(** The title line for a given [project_name]. *)
Definition title_line (project_name : value) : string :=
  "=== " ++ str project_name ++ " Implementation Documentation ===".

(** The line printed for an entry of the compliance mapping, and for an
    entry of the three other mappings. *)
Definition status_line (kv : string * value) : string :=
  "   " ++ str (snd kv).

Definition entry_line (kv : string * value) : string :=
  "   " ++ fst kv ++ ": " ++ str (snd kv).

(** The text of a section: its header after an empty line, then its lines. *)
Definition section_text (header : string) (body : list string) : string :=
  (nl ++ header) ++ nl ++ unlines body.

(** The dict an accessor returns (it is the same from every state, see
    [accessor_emits]). *)
Definition returned (acc : ref -> M dict) : dict :=
  match acc 0 (initial_state [] [] EmptyString) with
  | (Ok d, _) => d
  | (Raise _, _) => []
  end.

(** Everything [main] prints after the title line. *)
Definition sections_text : string :=
  section_text "1. Architecture Compliance:"
    (map status_line (returned get_architecture_compliance)) ++
  section_text "2. Technical Features:"
    (map entry_line (returned get_technical_features)) ++
  section_text "3. Error Handling:"
    (map entry_line (returned get_error_handling)) ++
  section_text "4. Deployment Notes:"
    (map entry_line (returned get_deployment_notes)).

(** The whole text of a run. *)
Definition main_text : string :=
  title_line (VStr "Crumble Bakery") ++ nl ++ sections_text.


(** The four accessor methods. *)
Definition accessors : list (ref -> M dict) :=
  [ get_architecture_compliance; get_technical_features;
    get_error_handling; get_deployment_notes ].

(** The attributes of an object once [__init__] has run on it, whatever it
    held before: the four assignments, in the order of the source. *)
Definition initialised (attrs : obj) : obj :=
  setitem (setitem (setitem (setitem attrs
    "project_name" (VStr "Crumble Bakery"))
    "file_count" (VInt 2))
    "max_lines_per_file" (VInt 100))
    "tech_stack" (VList [VStr "HTML5"; VStr "CSS3"]).

(** The names [__init__] assigns. *)
Definition field_names : list string :=
  [ "project_name"; "file_count"; "max_lines_per_file"; "tech_stack" ].

(** ** Standard output as an encoded stream *)

(** The code points of a text held in UTF-8.  A byte that opens no
    well-formed sequence stands for itself. *)
Definition is_cont (b : N) : bool := N.leb 128 b && N.ltb b 192.

Fixpoint code_points (s : string) : list N :=
  match s with
  | EmptyString => []
  | String a0 r0 =>
      let b0 := N_of_ascii a0 in
      match r0 with
      | EmptyString => [b0]
      | String a1 r1 =>
          let b1 := N_of_ascii a1 in
          if N.leb 192 b0 && N.ltb b0 224 && is_cont b1
          then ((b0 - 192) * 64 + (b1 - 128))%N :: code_points r1
          else
            match r1 with
            | EmptyString => b0 :: code_points r0
            | String a2 r2 =>
                let b2 := N_of_ascii a2 in
                if N.leb 224 b0 && N.ltb b0 240 && is_cont b1 && is_cont b2
                then ((b0 - 224) * 4096 + (b1 - 128) * 64 + (b2 - 128))%N
                       :: code_points r2
                else
                  match r2 with
                  | EmptyString => b0 :: code_points r0
                  | String a3 r3 =>
                      let b3 := N_of_ascii a3 in
                      if N.leb 240 b0 && N.ltb b0 248
                         && is_cont b1 && is_cont b2 && is_cont b3
                      then ((b0 - 240) * 262144 + (b1 - 128) * 4096
                            + (b2 - 128) * 64 + (b3 - 128))%N :: code_points r3
                      else b0 :: code_points r0
                  end
            end
      end
  end.

(** A codec with strict error handling that encodes character by
    character, as Python's ASCII, Latin-1, UTF-8 and character-map codecs
    do: the bytes of a code point, or nothing when it has none. *)
Record codec : Type := mkCodec {
  encode_char : N -> option string
}.

Definition byte (n : N) : string := String (ascii_of_N n) EmptyString.

Definition ascii_codec : codec :=
  mkCodec (fun cp => if N.ltb cp 128 then Some (byte cp) else None).

Definition latin_1 : codec :=
  mkCodec (fun cp => if N.ltb cp 256 then Some (byte cp) else None).

Definition utf_8 : codec :=
  mkCodec (fun cp =>
    if N.ltb cp 128 then Some (byte cp)
    else if N.ltb cp 2048
    then Some (byte (192 + cp / 64) ++ byte (128 + cp mod 64))
    else if N.leb 55296 cp && N.ltb cp 57344 then None
    else if N.ltb cp 65536
    then Some (byte (224 + cp / 4096) ++ byte (128 + (cp / 64) mod 64)
               ++ byte (128 + cp mod 64))
    else if N.ltb cp 1114112
    then Some (byte (240 + cp / 262144) ++ byte (128 + (cp / 4096) mod 64)
               ++ byte (128 + (cp / 64) mod 64) ++ byte (128 + cp mod 64))
    else None).

Fixpoint encode_points (c : codec) (cps : list N) : option string :=
  match cps with
  | [] => Some EmptyString
  | cp :: rest =>
      match encode_char c cp, encode_points c rest with
      | Some b, Some bs => Some (b ++ bs)
      | _, _ => None
      end
  end.

(** [s.encode(c)] with [errors='strict']. *)
Definition encode (c : codec) (s : string) : option string :=
  encode_points c (code_points s).

(** Whether [c] has every character of [s]. *)
Definition can_encode (c : codec) (s : string) : bool :=
  forallb (fun cp => match encode_char c cp with Some _ => true | None => false end)
          (code_points s).

(** Standard output as the interpreter sets it up at start, from what is
    outside the program (PYTHONIOENCODING, the locale, the -u option, the
    file or pipe behind it): its encoding, whether it is buffered (the
    default; the text of a run is shorter than the buffer) or written
    through, and whether the device takes the bytes that reach it. *)
Record Stdout : Type := mkStdout {
  encoding : codec;
  buffered : bool;
  accepts_flush : bool
}.

(** Whether a write of encoded bytes succeeds: the buffer takes them, or the
    device does. *)
Definition takes (out : Stdout) : bool := buffered out || accepts_flush out.

(** [sys.stdout.write(s)] on the stream [out]: the text is encoded as a
    whole, then handed to the buffer or the device; [stdout] holds the bytes
    the stream has taken. *)
Definition write_on (out : Stdout) (s : string) : M unit :=
  fun st =>
    match encode (encoding out) s with
    | Some bytes =>
        if takes out then (Ok tt, set_stdout st (stdout st ++ bytes))
        else (Raise OSError, st)
    | None => (Raise (UnicodeEncodeError s), st)
    end.

Definition print_on (out : Stdout) (s : string) : M unit :=
  write_on out s ;; write_on out nl.

(** [main] with its prints going to the stream [out]. *)
Definition main_body_on (out : Stdout) (bakery : ref) : M unit :=
  project_name <- getattr bakery "project_name" ;;
  print_on out ("=== " ++ str project_name ++ " Implementation Documentation ===") ;;
  print_on out (nl ++ "1. Architecture Compliance:") ;;
  compliance <- get_architecture_compliance bakery ;;
  for_each (items compliance) (fun '(requirement, status) =>
    print_on out ("   " ++ str status)) ;;
  print_on out (nl ++ "2. Technical Features:") ;;
  features <- get_technical_features bakery ;;
  for_each (items features) (fun '(category, details) =>
    print_on out ("   " ++ category ++ ": " ++ str details)) ;;
  print_on out (nl ++ "3. Error Handling:") ;;
  error_handling <- get_error_handling bakery ;;
  for_each (items error_handling) (fun '(aspect, approach) =>
    print_on out ("   " ++ aspect ++ ": " ++ str approach)) ;;
  print_on out (nl ++ "4. Deployment Notes:") ;;
  deployment <- get_deployment_notes bakery ;;
  for_each (items deployment) (fun '(aspect, note) =>
    print_on out ("   " ++ aspect ++ ": " ++ str note)).

Definition main_on (out : Stdout) : M unit :=
  bakery <- CrumbleBakeryImplementation ;;
  main_body_on out bakery.

(** The module body run under the name [name]: [main()] is called when the
    file is run as a script. *)
Definition module_body_on (out : Stdout) (name : string) : M unit :=
  if String.eqb name "__main__" then main_on out else ret tt.

(** A run of the file as a script, from the start of the process.  An
    exception that reaches the top gives exit status 1.  When it ends, the
    interpreter flushes standard output: if the stream is buffered, has
    bytes to flush and the device refuses them, the exit status is 120
    whatever the module body did. *)
Definition run_script_on (out : Stdout) (args : list string)
    (env : list (string * string)) (input : string) : Z * State :=
  match module_body_on out "__main__" (initial_state args env input) with
  | (r, st') =>
      if buffered out && negb (accepts_flush out)
         && negb (String.eqb (stdout st') EmptyString)
      then (120%Z, st')
      else match r with
           | Ok _ => (0%Z, st')
           | Raise _ => (1%Z, st')
           end
  end.

(** The texts [main] hands to [write], in order: each [print] gives its
    text, then the line end. *)
Definition print_writes (s : string) : list string := [s; nl].

Definition main_writes : list string :=
  List.concat
    [ print_writes (title_line (VStr "Crumble Bakery"));
      print_writes (nl ++ "1. Architecture Compliance:");
      flat_map (fun kv => print_writes (status_line kv))
               (returned get_architecture_compliance);
      print_writes (nl ++ "2. Technical Features:");
      flat_map (fun kv => print_writes (entry_line kv))
               (returned get_technical_features);
      print_writes (nl ++ "3. Error Handling:");
      flat_map (fun kv => print_writes (entry_line kv))
               (returned get_error_handling);
      print_writes (nl ++ "4. Deployment Notes:");
      flat_map (fun kv => print_writes (entry_line kv))
               (returned get_deployment_notes) ].

(** The outcome of writing [chunks] one after the other on the stream
    [out]: how it ends, and the bytes the stream has taken. *)
Fixpoint write_all (out : Stdout) (chunks : list string) : result unit * string :=
  match chunks with
  | [] => (Ok tt, EmptyString)
  | s :: rest =>
      match encode (encoding out) s with
      | None => (Raise (UnicodeEncodeError s), EmptyString)
      | Some b =>
          if takes out
          then let (r, bs) := write_all out rest in (r, b ++ bs)
          else (Raise OSError, EmptyString)
      end
  end.

(** [m] does what writing [chunks] in order does, from every state. *)
Definition replays (m : M unit) (out : Stdout) (chunks : list string) : Prop :=
  forall st, m st = for_each chunks (write_on out) st.

(** ** Strings and lists *)

Lemma append_nil_r (s : string) : s ++ EmptyString = s.
Proof. induction s as [|c s IH]; simpl; [reflexivity | now rewrite IH]. Qed.

Lemma append_assoc (a b c : string) : (a ++ b) ++ c = a ++ b ++ c.
Proof. induction a as [|x a IH]; simpl; [reflexivity | now rewrite IH]. Qed.

Lemma skip_append (a b : string) : skip (String.length a) (a ++ b) = b.
Proof. induction a as [|x a IH]; simpl; [now destruct b | exact IH]. Qed.

Lemma nth_error_last {A} (l : list A) (x : A) :
  nth_error (l ++ [x])%list (List.length l) = Some x.
Proof. induction l as [|y l IH]; simpl; [reflexivity | exact IH]. Qed.

Lemma update_nth_last {A} (l : list A) (x y : A) :
  update_nth (List.length l) y (l ++ [x])%list = (l ++ [y])%list.
Proof. induction l as [|z l IH]; simpl; [reflexivity | now rewrite IH]. Qed.

(** ** Laws of the effects *)

Lemma set_stdout_same (st : State) : set_stdout st (stdout st) = st.
Proof. now destruct st. Qed.

Lemma emits_ret {A} (a : A) : emits (ret a) a EmptyString.
Proof.
  intros st. unfold ret. now rewrite append_nil_r, set_stdout_same.
Qed.

Lemma emits_write (s : string) : emits (write s) tt s.
Proof. intros st. reflexivity. Qed.

Lemma emits_bind {A B} (m : M A) (f : A -> M B) a b t1 t2 :
  emits m a t1 -> emits (f a) b t2 -> emits (bind m f) b (t1 ++ t2).
Proof.
  intros Hm Hf st. unfold bind. rewrite Hm, Hf.
  unfold set_stdout; simpl. now rewrite append_assoc.
Qed.

Lemma emits_print (s : string) : emits (print s) tt (s ++ nl).
Proof. unfold print. apply (emits_bind _ _ tt); apply emits_write. Qed.

Lemma emits_text {A} (m : M A) a t t' : emits m a t -> t = t' -> emits m a t'.
Proof. now intros H <-. Qed.

Lemma emits_for_each {A} (body : A -> M unit) (line : A -> string) xs :
  (forall x, emits (body x) tt (line x ++ nl)) ->
  emits (for_each xs body) tt (unlines (map line xs)).
Proof.
  intros Hbody. induction xs as [|x xs IH]; simpl.
  - apply emits_ret.
  - eapply emits_text; [eapply emits_bind; [apply Hbody | exact IH]|].
    now rewrite append_assoc.
Qed.

(** An accessor returns its dict and touches nothing, whatever [self] and
    the state are. *)
Lemma accessor_emits (acc : ref -> M dict) :
  In acc accessors -> forall self, emits (acc self) (returned acc) EmptyString.
Proof.
  intros Hin self.
  repeat (destruct Hin as [<- | Hin]; [apply emits_ret |]).
  destruct Hin.
Qed.

Lemma accessor_run (acc : ref -> M dict) self st :
  In acc accessors -> acc self st = (Ok (returned acc), st).
Proof.
  intros Hin. rewrite (accessor_emits acc Hin self st).
  now rewrite append_nil_r, set_stdout_same.
Qed.

Lemma getattr_ok o name st attrs v :
  nth_error (heap st) o = Some attrs -> getitem attrs name = Some v ->
  getattr o name st = (Ok v, st).
Proof. intros Ho Hv. unfold getattr. now rewrite Ho, Hv. Qed.

(** The constructor allocates one object, holding [instance_attrs], after
    the objects already there. *)
Lemma constructor_run st :
  CrumbleBakeryImplementation st =
  (Ok (List.length (heap st)), set_heap st (heap st ++ [instance_attrs])%list).
Proof.
  unfold CrumbleBakeryImplementation, __init__, new_object, bind, setattr, ret.
  cbn [heap set_heap].
  rewrite nth_error_last, update_nth_last. cbn [heap set_heap].
  rewrite nth_error_last, update_nth_last. cbn [heap set_heap].
  rewrite nth_error_last, update_nth_last. cbn [heap set_heap].
  rewrite nth_error_last, update_nth_last. cbn [heap set_heap].
  reflexivity.
Qed.

(** What the driver does once [bakery] names an object with a
    [project_name]. *)
Lemma main_body_run bakery st attrs p :
  nth_error (heap st) bakery = Some attrs ->
  getitem attrs "project_name" = Some p ->
  main_body bakery st =
  (Ok tt, set_stdout st (stdout st ++ title_line p ++ nl ++ sections_text)).
Proof.
  intros Ho Hp. unfold main_body. unfold bind at 1.
  rewrite (getattr_ok _ _ _ _ _ Ho Hp).
  match goal with |- ?m st = _ => enough (E : emits m tt (title_line p ++ nl ++ sections_text)) by apply E end.
  eapply emits_text.
  - eapply emits_bind; [apply emits_print|].
    eapply emits_bind; [apply emits_print|].
    eapply emits_bind; [apply (accessor_emits get_architecture_compliance); simpl; tauto|].
    eapply emits_bind; [apply (emits_for_each _ status_line); intros [k v]; apply emits_print|].
    eapply emits_bind; [apply emits_print|].
    eapply emits_bind; [apply (accessor_emits get_technical_features); simpl; tauto|].
    eapply emits_bind; [apply (emits_for_each _ entry_line); intros [k v]; apply emits_print|].
    eapply emits_bind; [apply emits_print|].
    eapply emits_bind; [apply (accessor_emits get_error_handling); simpl; tauto|].
    eapply emits_bind; [apply (emits_for_each _ entry_line); intros [k v]; apply emits_print|].
    eapply emits_bind; [apply emits_print|].
    eapply emits_bind; [apply (accessor_emits get_deployment_notes); simpl; tauto|].
    apply (emits_for_each _ entry_line); intros [k v]; apply emits_print.
  - unfold sections_text, section_text, title_line, items.
    repeat rewrite append_assoc. reflexivity.
Qed.

(** A run of [main]: the text is appended to standard output, the instance
    to the heap, and the result is normal. *)
Lemma main_run st :
  main st =
  (Ok tt, mkState (argv st) (environ st) (stdin st)
            (stdout st ++ main_text) (heap st ++ [instance_attrs])%list).
Proof.
  unfold main, bind. rewrite constructor_run.
  erewrite main_body_run.
  - reflexivity.
  - cbn [heap set_heap]. apply nth_error_last.
  - reflexivity.
Qed.

Lemma written_by_main st : written_by main st = main_text.
Proof.
  unfold written_by. rewrite main_run. cbn [snd stdout].
  apply skip_append.
Qed.

(** ** Checks of the text functions on small inputs *)

Example repr_str_plain : repr_str "POST" = "'POST'".
Proof. reflexivity. Qed.

Example repr_str_single_quote :
  repr_str "it's" = String dquote "it's" ++ String dquote EmptyString.
Proof. reflexivity. Qed.

Example repr_str_line_feed : repr_str ("a" ++ nl ++ "b") = "'a\nb'".
Proof. reflexivity. Qed.

Example repr_nested :
  repr (VDict (dict_display [("k", VList [VInt 2; VBool true]); ("k", VInt (-7))]))
  = "{'k': -7}".
Proof. reflexivity. Qed.

Example lines_of_text : lines ("a" ++ nl ++ nl ++ "b" ++ nl) = ["a"; EmptyString; "b"].
Proof. reflexivity. Qed.

Example features_line :
  nth_error (lines main_text) 14 =
  Some "   typography: {'font_stack': 'system-ui, -apple-system, sans-serif', 'no_external_fonts': True}".
Proof. reflexivity. Qed.

(** ** The accessors *)

(** C1, as the specification states it, fails: the mapping returned by
    [get_deployment_notes] has five entries (hosting, dependencies,
    browser_support, performance, seo_ready), not four. *)
Lemma deployment_notes_has_five_entries :
  exists d,
    get_deployment_notes 0 (initial_state [] [] EmptyString)
      = (Ok d, initial_state [] [] EmptyString) /\
    keys d = ["hosting"; "dependencies"; "browser_support"; "performance";
              "seo_ready"] /\
    len d <> 4.
Proof.
  eexists. split; [reflexivity|]. split; [reflexivity|].
  vm_compute. discriminate.
Qed.

(** C1, amended: on every instance and in every state the accessors return
    mappings with fixed entry counts: 7 for the compliance mapping, 4 for the
    technical features, 4 for the error handling and 5 for the deployment
    notes. *)
Theorem accessor_entry_counts (self : ref) (st : State) :
  exists compliance features errors notes,
    get_architecture_compliance self st = (Ok compliance, st) /\
    get_technical_features self st = (Ok features, st) /\
    get_error_handling self st = (Ok errors, st) /\
    get_deployment_notes self st = (Ok notes, st) /\
    len compliance = 7 /\ len features = 4 /\ len errors = 4 /\ len notes = 5.
Proof.
  exists (returned get_architecture_compliance), (returned get_technical_features),
         (returned get_error_handling), (returned get_deployment_notes).
  repeat split; try reflexivity.
Qed.

(** C4: for each of the four accessors, any two invocations, on whatever
    instances and in whatever states (so also one after the other), succeed
    and return mappings with the same keys and the same values, in the same
    order. *)
Theorem accessors_idempotent (acc : ref -> M dict) :
  In acc accessors ->
  forall (self1 self2 : ref) (st1 st2 : State),
  exists d1 d2,
    fst (acc self1 st1) = Ok d1 /\ fst (acc self2 st2) = Ok d2 /\
    keys d1 = keys d2 /\ values d1 = values d2.
Proof.
  intros Hin self1 self2 st1 st2.
  exists (returned acc), (returned acc).
  rewrite !accessor_run by exact Hin. repeat split.
Qed.

Lemma accessors_idempotent_witness :
  exists d1 d2,
    fst (get_technical_features 0 (initial_state ["project.py"] [] EmptyString))
      = Ok d1 /\
    fst (get_technical_features 0
           (snd (get_technical_features 0
                   (initial_state ["project.py"] [] EmptyString))))
      = Ok d2 /\
    keys d1 = keys d2 /\ values d1 = values d2.
Proof.
  apply (accessors_idempotent get_technical_features); simpl; tauto.
Defined.

(** C5: each accessor takes nothing but the instance, returns a mapping from
    every instance and state without raising, and leaves the whole state
    (inputs, standard output, heap) as it was. *)
Theorem accessors_pure (acc : ref -> M dict) :
  In acc accessors ->
  forall (self : ref) (st : State), exists d, acc self st = (Ok d, st).
Proof.
  intros Hin self st. exists (returned acc). now apply accessor_run.
Qed.

Lemma accessors_pure_witness :
  exists d,
    get_error_handling 3 (initial_state [] [("HOME", "/root")] "input")
      = (Ok d, initial_state [] [("HOME", "/root")] "input").
Proof.
  apply (accessors_pure get_error_handling); simpl; tauto.
Defined.

(** C6: the compliance mapping has the key "file_count", and its value
    contains the text "2". *)
Theorem compliance_file_count (self : ref) (st : State) :
  exists d v,
    get_architecture_compliance self st = (Ok d, st) /\
    getitem d "file_count" = Some (VStr v) /\
    contains "2" v = true.
Proof.
  eexists. eexists. split; [reflexivity|]. split; reflexivity.
Qed.

(** C8: after the constructor has run, a call of any accessor on the new
    instance leaves the heap as it was, and the four fields still hold the
    values given at construction. *)
Theorem accessors_preserve_fields (acc : ref -> M dict) :
  In acc accessors ->
  forall (st st1 : State) (bakery : ref),
  CrumbleBakeryImplementation st = (Ok bakery, st1) ->
  let st2 := snd (acc bakery st1) in
  heap st2 = heap st1 /\
  getattr bakery "project_name" st2 = (Ok (VStr "Crumble Bakery"), st2) /\
  getattr bakery "file_count" st2 = (Ok (VInt 2), st2) /\
  getattr bakery "max_lines_per_file" st2 = (Ok (VInt 100), st2) /\
  getattr bakery "tech_stack" st2 = (Ok (VList [VStr "HTML5"; VStr "CSS3"]), st2).
Proof.
  intros Hin st st1 bakery Hnew st2. subst st2.
  rewrite accessor_run by exact Hin. cbn [snd].
  rewrite constructor_run in Hnew. injection Hnew as <- <-.
  split; [reflexivity|].
  repeat split;
    (eapply getattr_ok;
     [cbn [heap set_heap]; apply nth_error_last | reflexivity]).
Qed.

Lemma accessors_preserve_fields_witness :
  heap (snd (get_deployment_notes 0
               (snd (CrumbleBakeryImplementation (initial_state [] [] EmptyString)))))
    = [instance_attrs] /\
  fst (getattr 0 "file_count"
         (snd (get_deployment_notes 0
                 (snd (CrumbleBakeryImplementation (initial_state [] [] EmptyString))))))
    = Ok (VInt 2).
Proof.
  pose proof (accessors_preserve_fields get_deployment_notes
                ltac:(simpl; tauto) (initial_state [] [] EmptyString) _ 0 eq_refl)
    as (Hheap & _ & Hcount & _).
  split.
  - exact Hheap.
  - exact (f_equal fst Hcount).
Defined.

(** C9: every value of the compliance mapping is a text that begins with the
    check mark and a space. *)
Theorem compliance_values_checked (self : ref) (st : State) :
  exists d,
    get_architecture_compliance self st = (Ok d, st) /\
    Forall (fun v => exists s, v = VStr s /\ prefix "✓ " s = true) (values d).
Proof.
  eexists. split; [reflexivity|].
  repeat (constructor; [eexists; split; reflexivity|]).
  constructor.
Qed.

(** ** The driver *)



(** C10: the first line a run writes, before any section header, is
    "=== Crumble Bakery Implementation Documentation ===" ; the driver
    builds it from the [project_name] attribute of the instance: with any
    other value [p] there, the text it writes starts with the title line
    made of [p]. *)
Theorem title_line_first :
  (forall st,
     hd_error (lines (written_by main st))
       = Some "=== Crumble Bakery Implementation Documentation ===") /\
  (forall bakery st attrs p,
     nth_error (heap st) bakery = Some attrs ->
     getitem attrs "project_name" = Some p ->
     exists rest,
       written_by (main_body bakery) st
         = "=== " ++ str p ++ " Implementation Documentation ===" ++ nl ++ rest).
Proof.
  split.
  - intros st. rewrite written_by_main. reflexivity.
  - intros bakery st attrs p Ho Hp. exists sections_text.
    unfold written_by. rewrite (main_body_run _ _ _ _ Ho Hp).
    cbn [snd stdout set_stdout]. rewrite skip_append.
    unfold title_line. now rewrite !append_assoc.
Qed.

Lemma title_line_first_witness :
  exists rest,
    written_by (main_body 0)
      (mkState [] [] EmptyString "earlier output" [[("project_name", VStr "Bread")]])
      = "=== Bread Implementation Documentation ===" ++ nl ++ rest.
Proof.
  exact (proj2 title_line_first 0
           (mkState [] [] EmptyString "earlier output" [[("project_name", VStr "Bread")]])
           [("project_name", VStr "Bread")] (VStr "Bread") eq_refl eq_refl).
Defined.

(** ** Dicts, attributes and the heap *)

Lemma getitem_setitem_same (d : dict) k v : getitem (setitem d k v) k = Some v.
Proof.
  induction d as [|[k' v'] d IH]; simpl.
  - now rewrite String.eqb_refl.
  - destruct (String.eqb k' k) eqn:E; simpl; now rewrite E.
Qed.

Lemma getitem_setitem_other (d : dict) k k' v :
  k' <> k -> getitem (setitem d k v) k' = getitem d k'.
Proof.
  intros Hne. induction d as [|[k0 v0] d IH]; simpl.
  - destruct (String.eqb k k') eqn:E; [|reflexivity].
    apply String.eqb_eq in E. now elim Hne.
  - destruct (String.eqb k0 k) eqn:E; simpl.
    + apply String.eqb_eq in E. subst k0.
      destruct (String.eqb k k') eqn:E'; [|reflexivity].
      apply String.eqb_eq in E'. now elim Hne.
    + now rewrite IH.
Qed.

Lemma setitem_same_value (d : dict) k v :
  getitem d k = Some v -> setitem d k v = d.
Proof.
  induction d as [|[k' v'] d IH]; simpl; [discriminate|].
  destruct (String.eqb k' k) eqn:E.
  - now intros [= ->].
  - intros H. now rewrite IH.
Qed.

Lemma nth_error_update_nth_same {A} (l : list A) n x y :
  nth_error l n = Some y -> nth_error (update_nth n x l) n = Some x.
Proof.
  revert n. induction l as [|z l IH]; intros [|n]; simpl; try discriminate.
  - reflexivity.
  - apply IH.
Qed.

Lemma nth_error_update_nth_other {A} (l : list A) n m x :
  m <> n -> nth_error (update_nth n x l) m = nth_error l m.
Proof.
  revert n m. induction l as [|z l IH]; intros [|n] [|m] Hne; simpl;
    try reflexivity.
  - now elim Hne.
  - apply IH. congruence.
Qed.

Lemma update_nth_twice {A} (l : list A) n x y :
  update_nth n y (update_nth n x l) = update_nth n y l.
Proof.
  revert n. induction l as [|z l IH]; intros [|n]; simpl; try reflexivity.
  now rewrite IH.
Qed.

Lemma nth_error_old {A} (l : list A) (x y : A) n :
  nth_error l n = Some y -> nth_error (l ++ [x])%list n = Some y.
Proof.
  revert n. induction l as [|z l IH]; intros [|n]; simpl; try discriminate.
  - trivial.
  - apply IH.
Qed.

Lemma nth_error_none_at_length {A} (l : list A) :
  nth_error l (List.length l) = None.
Proof. induction l as [|z l IH]; simpl; [reflexivity | exact IH]. Qed.


Lemma setattr_ok o name v st attrs :
  nth_error (heap st) o = Some attrs ->
  setattr o name v st
  = (Ok tt, set_heap st (update_nth o (setitem attrs name v) (heap st))).
Proof. intros Ho. unfold setattr. now rewrite Ho. Qed.

(** [__init__] on a live object: its attributes become [initialised], and
    nothing else in the state moves. *)
Lemma init_run self st attrs :
  nth_error (heap st) self = Some attrs ->
  __init__ self st
  = (Ok tt, set_heap st (update_nth self (initialised attrs) (heap st))).
Proof.
  intros Ho. unfold __init__, bind.
  rewrite (setattr_ok _ _ _ _ _ Ho).
  erewrite setattr_ok
    by (cbn [heap set_heap]; eapply nth_error_update_nth_same; exact Ho).
  cbn [heap set_heap]. rewrite update_nth_twice.
  erewrite setattr_ok
    by (cbn [heap set_heap]; eapply nth_error_update_nth_same; exact Ho).
  cbn [heap set_heap]. rewrite update_nth_twice.
  erewrite setattr_ok
    by (cbn [heap set_heap]; eapply nth_error_update_nth_same; exact Ho).
  cbn [heap set_heap]. rewrite update_nth_twice.
  reflexivity.
Qed.

Lemma initialised_fields (attrs : obj) :
  getitem (initialised attrs) "project_name" = Some (VStr "Crumble Bakery") /\
  getitem (initialised attrs) "file_count" = Some (VInt 2) /\
  getitem (initialised attrs) "max_lines_per_file" = Some (VInt 100) /\
  getitem (initialised attrs) "tech_stack"
    = Some (VList [VStr "HTML5"; VStr "CSS3"]).
Proof.
  unfold initialised. repeat split.
  - rewrite !getitem_setitem_other by discriminate. apply getitem_setitem_same.
  - rewrite !getitem_setitem_other by discriminate. apply getitem_setitem_same.
  - rewrite !getitem_setitem_other by discriminate. apply getitem_setitem_same.
  - apply getitem_setitem_same.
Qed.

Lemma initialised_twice (attrs : obj) :
  initialised (initialised attrs) = initialised attrs.
Proof.
  destruct (initialised_fields attrs) as (H1 & H2 & H3 & H4).
  unfold initialised at 1.
  rewrite (setitem_same_value _ _ _ H1), (setitem_same_value _ _ _ H2),
          (setitem_same_value _ _ _ H3), (setitem_same_value _ _ _ H4).
  reflexivity.
Qed.

(** ** Further properties of the class *)

(** X1: the constructor never raises and prints nothing; the reference it
    returns named no object before, every object already there is kept as
    it was, and the new object holds exactly the four attributes of
    [__init__], in the order of assignment. *)
Theorem constructor_fresh (st : State) :
  exists bakery st1,
    CrumbleBakeryImplementation st = (Ok bakery, st1) /\
    nth_error (heap st) bakery = None /\
    nth_error (heap st1) bakery
      = Some [ ("project_name", VStr "Crumble Bakery"); ("file_count", VInt 2);
               ("max_lines_per_file", VInt 100);
               ("tech_stack", VList [VStr "HTML5"; VStr "CSS3"]) ] /\
    (forall r o, nth_error (heap st) r = Some o -> nth_error (heap st1) r = Some o) /\
    List.length (heap st1) = S (List.length (heap st)) /\
    stdout st1 = stdout st /\ argv st1 = argv st /\
    environ st1 = environ st /\ stdin st1 = stdin st.
Proof.
  eexists. eexists. split; [apply constructor_run|].
  cbn [heap set_heap stdout argv environ stdin].
  split; [apply nth_error_none_at_length|].
  split; [apply nth_error_last|].
  split; [intros r o Hr; now apply nth_error_old|].
  split; [rewrite length_app; simpl; lia|].
  repeat split.
Qed.

(** X3: run on a live object, whatever attributes it holds, [__init__]
    returns normally, prints nothing, leaves every other object alone, sets
    the four fields to their constants and keeps every attribute of another
    name. *)
Theorem init_resets_fields (self : ref) (st : State) (attrs : obj) :
  nth_error (heap st) self = Some attrs ->
  exists attrs',
    fst (__init__ self st) = Ok tt /\
    stdout (snd (__init__ self st)) = stdout st /\
    (forall r, r <> self ->
       nth_error (heap (snd (__init__ self st))) r = nth_error (heap st) r) /\
    nth_error (heap (snd (__init__ self st))) self = Some attrs' /\
    getitem attrs' "project_name" = Some (VStr "Crumble Bakery") /\
    getitem attrs' "file_count" = Some (VInt 2) /\
    getitem attrs' "max_lines_per_file" = Some (VInt 100) /\
    getitem attrs' "tech_stack" = Some (VList [VStr "HTML5"; VStr "CSS3"]) /\
    (forall name, ~ In name field_names -> getitem attrs' name = getitem attrs name).
Proof.
  intros Ho. exists (initialised attrs).
  rewrite (init_run _ _ _ Ho). cbn [fst snd heap stdout set_heap].
  destruct (initialised_fields attrs) as (H1 & H2 & H3 & H4).
  split; [reflexivity|]. split; [reflexivity|].
  split; [intros r Hr; now apply nth_error_update_nth_other|].
  split; [eapply nth_error_update_nth_same; exact Ho|].
  repeat (split; [assumption|]).
  intros name Hname. unfold initialised.
  rewrite !getitem_setitem_other; [reflexivity| | | |];
    intros ->; apply Hname; simpl; tauto.
Qed.

Lemma init_resets_fields_witness :
  exists attrs',
    fst (__init__ 0 (mkState [] [] EmptyString "out"
           [[("owner", VStr "Ann"); ("file_count", VInt 9)]])) = Ok tt /\
    nth_error (heap (snd (__init__ 0 (mkState [] [] EmptyString "out"
           [[("owner", VStr "Ann"); ("file_count", VInt 9)]])))) 0 = Some attrs' /\
    getitem attrs' "file_count" = Some (VInt 2) /\
    getitem attrs' "owner" = Some (VStr "Ann").
Proof.
  destruct (init_resets_fields 0
              (mkState [] [] EmptyString "out"
                 [[("owner", VStr "Ann"); ("file_count", VInt 9)]])
              [("owner", VStr "Ann"); ("file_count", VInt 9)] eq_refl)
    as (attrs' & Hok & _ & _ & Hobj & _ & Hcount & _ & _ & Hother).
  exists attrs'. repeat split; try assumption.
  rewrite Hother; [reflexivity|].
  simpl. intros [H|[H|[H|[H|[]]]]]; discriminate H.
Defined.

(** X4: [__init__] is idempotent on a live object: running it a second time
    changes nothing more. *)
Theorem init_idempotent (self : ref) (st : State) (attrs : obj) :
  nth_error (heap st) self = Some attrs ->
  (__init__ self ;; __init__ self) st = __init__ self st.
Proof.
  intros Ho. unfold bind. rewrite (init_run _ _ _ Ho).
  erewrite init_run
    by (cbn [heap set_heap]; eapply nth_error_update_nth_same; exact Ho).
  cbn [heap set_heap]. rewrite update_nth_twice, initialised_twice.
  reflexivity.
Qed.

Lemma init_idempotent_witness :
  (__init__ 1 ;; __init__ 1)
    (mkState [] [] EmptyString EmptyString [[]; [("tech_stack", VInt 0)]])
  = __init__ 1
    (mkState [] [] EmptyString EmptyString [[]; [("tech_stack", VInt 0)]]).
Proof.
  exact (init_idempotent 1
           (mkState [] [] EmptyString EmptyString [[]; [("tech_stack", VInt 0)]])
           [("tech_stack", VInt 0)] eq_refl).
Defined.

(** ** Further properties of the driver *)


(** ** The driver on an encoded stream *)

Lemma for_each_write_run out chunks st :
  for_each chunks (write_on out) st =
  (fst (write_all out chunks),
   set_stdout st (stdout st ++ snd (write_all out chunks))).
Proof.
  revert st. induction chunks as [|s rest IH]; intros st; simpl.
  - unfold ret. now rewrite append_nil_r, set_stdout_same.
  - unfold bind. unfold write_on at 1.
    destruct (encode (encoding out) s) as [b|]; simpl.
    + destruct (takes out); simpl.
      * rewrite IH. destruct (write_all out rest) as [r bs]. simpl.
        unfold set_stdout; simpl. now rewrite append_assoc.
      * now rewrite append_nil_r, set_stdout_same.
    + now rewrite append_nil_r, set_stdout_same.
Qed.

Lemma for_each_app {A} (xs ys : list A) (body : A -> M unit) st :
  for_each (xs ++ ys)%list body st = (for_each xs body ;; for_each ys body) st.
Proof.
  revert st. induction xs as [|x xs IH]; intros st; simpl.
  - reflexivity.
  - unfold bind in *. destruct (body x st) as [[[]|e] st']; [apply IH | reflexivity].
Qed.

Lemma replays_eq m out xs ys : replays m out xs -> xs = ys -> replays m out ys.
Proof. now intros H <-. Qed.

Lemma replays_bind (m m' : M unit) out xs ys :
  replays m out xs -> replays m' out ys -> replays (m ;; m') out (xs ++ ys)%list.
Proof.
  intros Hm Hm' st. rewrite for_each_app. unfold bind. rewrite Hm.
  destruct (for_each xs (write_on out) st) as [[[]|e] st'];
    [apply Hm' | reflexivity].
Qed.

Lemma replays_pure {A} (m : M A) (f : A -> M unit) a out ys :
  emits m a EmptyString -> replays (f a) out ys -> replays (bind m f) out ys.
Proof.
  intros Hm Hf st. unfold bind. rewrite Hm.
  rewrite append_nil_r, set_stdout_same. apply Hf.
Qed.

Lemma replays_print out s : replays (print_on out s) out (print_writes s).
Proof.
  intros st. unfold print_on, print_writes. simpl. unfold bind.
  destruct (write_on out s st) as [[[]|e] st']; [|reflexivity].
  destruct (write_on out nl st') as [[[]|e] st'']; reflexivity.
Qed.

Lemma replays_for_each {A} (body : A -> M unit) (chunks_of : A -> list string)
    out xs :
  (forall x, replays (body x) out (chunks_of x)) ->
  replays (for_each xs body) out (flat_map chunks_of xs).
Proof.
  intros Hbody. induction xs as [|x xs IH]; simpl.
  - intros st. reflexivity.
  - apply replays_bind; [apply Hbody | exact IH].
Qed.

(** On any stream, [main] allocates its instance and then does what writing
    [main_writes] in order does. *)
Lemma main_on_replays out st :
  main_on out st =
  for_each main_writes (write_on out)
    (set_heap st (heap st ++ [instance_attrs])%list).
Proof.
  unfold main_on, bind. rewrite constructor_run.
  unfold main_body_on. unfold bind at 1.
  erewrite getattr_ok;
    [| cbn [heap set_heap]; apply nth_error_last | reflexivity].
  match goal with
  | |- ?m _ = _ => enough (E : replays m out main_writes) by apply E
  end.
  eapply replays_eq.
  - eapply replays_bind; [apply replays_print|].
    eapply replays_bind; [apply replays_print|].
    eapply replays_pure;
      [apply (accessor_emits get_architecture_compliance); simpl; tauto|].
    cbv beta.
    eapply replays_bind;
      [apply (replays_for_each _ (fun kv => print_writes (status_line kv)));
       intros [k v]; apply replays_print|].
    eapply replays_bind; [apply replays_print|].
    eapply replays_pure;
      [apply (accessor_emits get_technical_features); simpl; tauto|].
    cbv beta.
    eapply replays_bind;
      [apply (replays_for_each _ (fun kv => print_writes (entry_line kv)));
       intros [k v]; apply replays_print|].
    eapply replays_bind; [apply replays_print|].
    eapply replays_pure;
      [apply (accessor_emits get_error_handling); simpl; tauto|].
    cbv beta.
    eapply replays_bind;
      [apply (replays_for_each _ (fun kv => print_writes (entry_line kv)));
       intros [k v]; apply replays_print|].
    eapply replays_bind; [apply replays_print|].
    eapply replays_pure;
      [apply (accessor_emits get_deployment_notes); simpl; tauto|].
    cbv beta.
    apply (replays_for_each _ (fun kv => print_writes (entry_line kv)));
      intros [k v]; apply replays_print.
  - reflexivity.
Qed.

Lemma main_on_run out st :
  main_on out st =
  (fst (write_all out main_writes),
   mkState (argv st) (environ st) (stdin st)
     (stdout st ++ snd (write_all out main_writes))
     (heap st ++ [instance_attrs])%list).
Proof. rewrite main_on_replays, for_each_write_run. reflexivity. Qed.

Lemma written_by_main_on out st :
  written_by (main_on out) st = snd (write_all out main_writes).
Proof.
  unfold written_by. rewrite main_on_run. cbn [snd stdout].
  apply skip_append.
Qed.

(** *** Encoding *)

Lemma encode_points_app c xs ys :
  encode_points c (xs ++ ys)%list =
  match encode_points c xs, encode_points c ys with
  | Some a, Some b => Some (a ++ b)
  | _, _ => None
  end.
Proof.
  induction xs as [|x xs IH]; simpl.
  - now destruct (encode_points c ys).
  - rewrite IH. destruct (encode_char c x) as [bx|]; [|reflexivity].
    destruct (encode_points c xs) as [a|]; [|reflexivity].
    destruct (encode_points c ys) as [b|]; [|reflexivity].
    now rewrite append_assoc.
Qed.

Lemma can_encode_some c s :
  can_encode c s = true -> exists b, encode c s = Some b.
Proof.
  unfold can_encode, encode. induction (code_points s) as [|cp cps IH]; simpl.
  - now eexists.
  - destruct (encode_char c cp) as [b|]; simpl; [|discriminate].
    intros H. destruct (IH H) as [bs ->]. now eexists.
Qed.

Lemma can_encode_none c s : can_encode c s = false -> encode c s = None.
Proof.
  unfold can_encode, encode. induction (code_points s) as [|cp cps IH]; simpl.
  - discriminate.
  - destruct (encode_char c cp) as [b|]; simpl; [|reflexivity].
    intros H. now rewrite (IH H).
Qed.

Lemma forallb_flat_map {A B} (p : B -> bool) (f : A -> list B) (l : list A) :
  forallb p (flat_map f l) = forallb (fun x => forallb p (f x)) l.
Proof.
  induction l as [|x l IH]; simpl; [reflexivity|].
  now rewrite forallb_app, IH.
Qed.

(** Writing chunks that can all be encoded, on a stream that takes them,
    ends normally, and the stream has taken the encoding of their
    characters. *)
Lemma write_all_ok out chunks :
  takes out = true ->
  forallb (can_encode (encoding out)) chunks = true ->
  fst (write_all out chunks) = Ok tt /\
  encode_points (encoding out) (flat_map code_points chunks)
    = Some (snd (write_all out chunks)).
Proof.
  intros Htakes.
  induction chunks as [|s rest IH]; simpl; intros H; [now split|].
  apply andb_prop in H as [Hs Hrest].
  destruct (IH Hrest) as [Hok Hbytes].
  rewrite encode_points_app, Hbytes, Htakes.
  destruct (can_encode_some _ s Hs) as [b Hb]. rewrite Hb.
  unfold encode in Hb. rewrite Hb.
  destruct (write_all out rest) as [r bs]. simpl in *. now split.
Qed.

(** Writing chunks one of which cannot be encoded ends at the first such
    chunk, with [UnicodeEncodeError]. *)
Lemma write_all_fails out chunks :
  takes out = true ->
  forallb (can_encode (encoding out)) chunks = false ->
  exists s, In s chunks /\ can_encode (encoding out) s = false /\
            fst (write_all out chunks) = Raise (UnicodeEncodeError s).
Proof.
  intros Htakes.
  induction chunks as [|s rest IH]; simpl; [discriminate|].
  destruct (can_encode (encoding out) s) eqn:Hs; simpl; intros H.
  - destruct (IH H) as (s' & Hin & Hs' & Hr).
    destruct (can_encode_some _ s Hs) as [b ->]. rewrite Htakes.
    destruct (write_all out rest) as [r bs]. simpl in *.
    exists s'. auto.
  - rewrite (can_encode_none _ s Hs). simpl. exists s. auto.
Qed.

(** The characters of the whole text are those of the chunks, in order. *)
Lemma code_points_main_text :
  code_points main_text = flat_map code_points main_writes.
Proof. vm_compute. reflexivity. Qed.

Lemma can_encode_main_writes c :
  forallb (can_encode c) main_writes = can_encode c main_text.
Proof.
  unfold can_encode at 2. rewrite code_points_main_text, forallb_flat_map.
  reflexivity.
Qed.

(** When the encoding has every character of the text and the stream takes
    the bytes, a run writes the encoding of the text. *)
Lemma main_on_writes_encoding out st :
  can_encode (encoding out) main_text = true ->
  takes out = true ->
  main_on out st =
  (Ok tt, mkState (argv st) (environ st) (stdin st)
            (stdout st ++ snd (write_all out main_writes))
            (heap st ++ [instance_attrs])%list) /\
  encode (encoding out) main_text = Some (snd (write_all out main_writes)).
Proof.
  intros H Htakes. rewrite <- can_encode_main_writes in H.
  destruct (write_all_ok out main_writes Htakes H) as [Hok Hbytes].
  rewrite main_on_run, Hok. split; [reflexivity|].
  unfold encode. now rewrite code_points_main_text.
Qed.

(** When the encoding lacks one, a run ends with [UnicodeEncodeError]. *)
Lemma main_on_unencodable out st :
  can_encode (encoding out) main_text = false ->
  takes out = true ->
  exists s, fst (main_on out st) = Raise (UnicodeEncodeError s).
Proof.
  intros H Htakes. rewrite <- can_encode_main_writes in H.
  destruct (write_all_fails out main_writes Htakes H) as (s & _ & _ & Hr).
  exists s. now rewrite main_on_run.
Qed.

(** On a UTF-8 stream that takes the bytes, the driver is the driver of the
    text level. *)
Lemma main_on_utf_8 (b : bool) st : main_on (mkStdout utf_8 b true) st = main st.
Proof.
  rewrite main_on_run, main_run.
  assert (E : write_all (mkStdout utf_8 b true) main_writes = (Ok tt, main_text))
    by (destruct b; vm_compute; reflexivity).
  now rewrite E.
Qed.

(** What a refused output does: on a buffered stream the run goes to its
    end and the flush at exit gives status 120; written through, the first
    [print] raises [OSError] and the status is 1. *)
Example refused_output_exit_status :
  fst (run_script_on (mkStdout utf_8 true false) [] [] EmptyString) = 120%Z /\
  fst (main_on (mkStdout utf_8 false false) (initial_state [] [] EmptyString))
    = Raise OSError /\
  fst (run_script_on (mkStdout utf_8 false false) [] [] EmptyString) = 1%Z.
Proof. repeat split; vm_compute; reflexivity. Qed.

(** C3, as the specification states it, fails: the bytes written depend on
    the encoding of standard output.  On a UTF-8 stream a run writes the
    whole text; on an ASCII stream it writes the title, the empty line and
    the first header, and the first compliance line raises
    [UnicodeEncodeError]. *)
Lemma output_differs_between_encodings :
  written_by (main_on (mkStdout utf_8 true true))
    (initial_state [] [] EmptyString) = main_text /\
  fst (main_on (mkStdout ascii_codec true true) (initial_state [] [] EmptyString))
    = Raise (UnicodeEncodeError "   ✓ Exactly 2 files (index.html, style.css)") /\
  lines (written_by (main_on (mkStdout ascii_codec true true))
           (initial_state [] [] EmptyString))
    = [ "=== Crumble Bakery Implementation Documentation ===";
        EmptyString; "1. Architecture Compliance:" ] /\
  written_by (main_on (mkStdout ascii_codec true true))
    (initial_state [] [] EmptyString)
    <> written_by (main_on (mkStdout utf_8 true true))
         (initial_state [] [] EmptyString).
Proof.
  split; [vm_compute; reflexivity|].
  split; [vm_compute; reflexivity|].
  split; [vm_compute; reflexivity|].
  intros H. apply (f_equal String.length) in H. vm_compute in H. discriminate.
Qed.

(** C3, amended: the output does not depend on the arguments, the
    environment variables, standard input or anything done before in the
    process: any two runs whose standard output is set up the same way (the
    same encoding, on the same kind of stream) end the same way and write
    byte-for-byte the same output, also one after the other. *)
Theorem output_fixed_by_encoding (out : Stdout) (st1 st2 : State) :
  fst (main_on out st1) = fst (main_on out st2) /\
  written_by (main_on out) st1 = written_by (main_on out) st2 /\
  written_by (main_on out) (snd (main_on out st1)) = written_by (main_on out) st1.
Proof.
  rewrite !written_by_main_on. rewrite !main_on_run. repeat split.
Qed.

(** C7, as the specification states it, fails: a run whose standard output
    is ASCII ends with an uncaught [UnicodeEncodeError], raised by the first
    compliance line, and with exit status 1. *)
Lemma ascii_run_exits_one :
  fst (main_on (mkStdout ascii_codec true true) (initial_state [] [] EmptyString))
    = Raise (UnicodeEncodeError "   ✓ Exactly 2 files (index.html, style.css)") /\
  fst (run_script_on (mkStdout ascii_codec true true) [] [] EmptyString) = 1%Z.
Proof. split; vm_compute; reflexivity. Qed.

(** C7, amended: the entry point takes no argument, and on every run whose
    standard output can encode the characters of the text (ASCII and the
    check mark) and whose device takes the bytes, [main] returns normally
    and the script ends with exit status 0. *)
Theorem script_exits_zero (out : Stdout) (args : list string)
    (env : list (string * string)) (input : string) :
  can_encode (encoding out) main_text = true ->
  accepts_flush out = true ->
  fst (main_on out (initial_state args env input)) = Ok tt /\
  fst (run_script_on out args env input) = 0%Z.
Proof.
  intros Hcan Hflush.
  assert (Htakes : takes out = true)
    by (unfold takes; rewrite Hflush; apply orb_true_r).
  destruct (main_on_writes_encoding out
              (initial_state args env input) Hcan Htakes) as [Hrun _].
  unfold run_script_on, module_body_on. rewrite String.eqb_refl.
  rewrite Hrun, Hflush, andb_false_r. split; reflexivity.
Qed.

Lemma script_exits_zero_witness :
  fst (main_on (mkStdout utf_8 true true)
         (initial_state ["project.py"] [("LANG", "C.UTF-8")] EmptyString))
    = Ok tt /\
  fst (run_script_on (mkStdout utf_8 true true) ["project.py"]
         [("LANG", "C.UTF-8")] EmptyString) = 0%Z.
Proof.
  apply (script_exits_zero (mkStdout utf_8 true true)); reflexivity.
Defined.
